(** * A shallow embedding of [src/gistapi/gistapi.py]

    The Flask handler [search] and its helper [gists_for_user] are modelled
    as programs in a small exception-and-trace monad: every outbound HTTP
    GET is appended to a trace of requested URLs, and every uncaught Python
    exception ends the run with that exception (Flask then answers 500).
    The upstream provider is a [world]: a function from URL to reply.
    Python's [re.search] is a parameter of the development ([re_search]),
    returning [None] where the pattern fails to compile ([re.error]). *)

From Stdlib Require Import String Ascii List ZArith Bool Lia.
Import ListNotations.
Open Scope string_scope.

Module GistApi.

(** ** Data as the code receives it *)

(** One entry of [gist['files']]: the code only reads ['raw_url']. *)
Record file_ref := mk_file { raw_url : string }.

(** One gist object of the listing: ['id'] and the ['files'] mapping,
    kept as an association list in JSON (= dict insertion) order. *)
Record gist := mk_gist { gist_id : string; gist_files : list (string * file_ref) }.

(** The value returned by [response.json()] on the listing endpoint: a JSON
    array of gist objects, or any other JSON value (object, string, ...). *)
Inductive listing_json :=
| LArr (gs : list gist)
| LOther.

(** An HTTP response: status, [.text], the parse of [.json()] ([None] when
    the body is not JSON, so [.json()] raises) and the [Link: rel=next]
    pagination header, if any. *)
Record response := mk_resp {
  status_code : Z;
  text : string;
  json : option listing_json;
  link_next : option string }.

(** What [requests.get] yields: a response, or a transport failure
    (connection error, timeout), raised as an exception. *)
Inductive reply :=
| Resp (r : response)
| TransportFailure.

Definition world := string -> reply.

(** Uncaught Python exceptions the handler can end with. *)
Inductive py_exc :=
| ConnectionError   (* requests.exceptions.ConnectionError / Timeout *)
| JSONDecodeError   (* response.json() on a non-JSON body *)
| ReError           (* re.error: the pattern does not compile *)
| TypeError.        (* re.search(None, ...) *)

(** The POST body: [post_data.get(...)] yields [None] for a missing key. *)
Record request := mk_req { req_username : option string; req_pattern : option string }.

(** The two JSON bodies [jsonify] can produce. [RFail] is the fixed
    object [{'error': 'not found', 'message': 'invalid user', 'status': 'fail'}]. *)
Inductive result :=
| RSuccess (username : option string) (pattern : option string) (matches : list string)
| RFail.

(** ** The exception-and-trace monad *)

Definition M (A : Type) := list string -> (py_exc + A) * list string.

Definition ret {A} (a : A) : M A := fun tr => (inr a, tr).
Definition raise {A} (e : py_exc) : M A := fun tr => (inl e, tr).
Definition bind {A B} (m : M A) (f : A -> M B) : M B :=
  fun tr => match m tr with
            | (inl e, tr') => (inl e, tr')
            | (inr a, tr') => f a tr'
            end.

Notation "x <- m ;; k" := (bind m (fun x => k))
  (at level 61, m at next level, right associativity).

(** [requests.get(url)] / [session.get(url)]: records the request. *)
Definition http_get (w : world) (url : string) : M response :=
  fun tr => match w url with
            | Resp r => (inr r, (tr ++ [url])%list)
            | TransportFailure => (inl ConnectionError, (tr ++ [url])%list)
            end.

(** [str.format] of an optional string: [None] renders as ["None"]. *)
Definition py_str (s : option string) : string :=
  match s with Some s => s | None => "None" end.

(** ** [gists_for_user] *)

Definition gists_url (username : option string) : string :=
  "https://api.github.com/users/" ++ py_str username ++ "/gists".

(** [response.raise_for_status()] raises [HTTPError] for 4xx and 5xx. *)
Definition raise_for_status_fails (code : Z) : bool :=
  (400 <=? code)%Z && (code <? 600)%Z.

Definition response_json (r : response) : M listing_json :=
  match json r with
  | Some j => ret j
  | None => raise JSONDecodeError
  end.

Definition gists_for_user (w : world) (username : option string) : M listing_json :=
  response <- http_get w (gists_url username);;
  if raise_for_status_fails (status_code response)
  then (* except HTTPError as e: return e.response.json() *) response_json response
  else response_json response.

(** ** [search] *)

Definition gist_html_url (username : option string) (g : gist) : string :=
  "https://gist.github.com/" ++ py_str username ++ "/" ++ gist_id g.

Section Search.

(** [re.search(pattern, s)]: [Some b] whether it matches, [None] for
    [re.error]. *)
Variable re_search : string -> string -> option bool.

Definition py_re_search (pattern : option string) (s : string) : M bool :=
  match pattern with
  | None => raise TypeError
  | Some p => match re_search p s with
              | Some b => ret b
              | None => raise ReError
              end
  end.

(** The inner loop [for file in gist['files'].values(): ...]. *)
Fixpoint search_files (w : world) (username pattern : option string) (g : gist)
    (fs : list (string * file_ref)) (matches : list string) : M (list string) :=
  match fs with
  | [] => ret matches
  | (_, file) :: fs' =>
      r <- http_get w (raw_url file);;
      m <- py_re_search pattern (text r);;
      search_files w username pattern g fs'
        (if m then (matches ++ [gist_html_url username g])%list else matches)
  end.

(** The outer loop [for gist in gists: ...]. *)
Fixpoint search_gists (w : world) (username pattern : option string)
    (gs : list gist) (matches : list string) : M (list string) :=
  match gs with
  | [] => ret matches
  | g :: gs' =>
      ms <- search_files w username pattern g (gist_files g) matches;;
      search_gists w username pattern gs' ms
  end.

(** [if gists and type(gists) is list:] succeeds only on a non-empty array. *)
Definition search (w : world) (post_data : request) : M result :=
  let username := req_username post_data in
  let pattern := req_pattern post_data in
  gists <- gists_for_user w username;;
  match gists with
  | LArr ((_ :: _) as gs) =>
      matches <- search_gists w username pattern gs [];;
      ret (RSuccess username pattern matches)
  | _ => ret RFail
  end.

(** One request, starting from an empty trace. *)
Definition run_search (w : world) (post_data : request) : (py_exc + result) * list string :=
  search w post_data [].

End Search.

(** ** Traversal order and match predicates, as the spec phrases them *)

Section Traversal.

Variable re_search : string -> string -> option bool.

(** Whether the body served at a file's raw URL matches the pattern. *)
Definition file_matches (w : world) (pattern : option string) (f : file_ref) : bool :=
  match pattern with
  | None => false
  | Some p =>
      match w (raw_url f) with
      | Resp r => match re_search p (text r) with Some true => true | _ => false end
      | TransportFailure => false
      end
  end.

(** The spec's "Expand" step: every (gist, file) pair, gist-then-file order. *)
Definition spec_expand (gs : list gist) : list (gist * file_ref) :=
  flat_map (fun g => map (fun nf => (g, snd nf)) (gist_files g)) gs.

(** The gist URLs of the matching pairs, in traversal order. *)
Definition spec_matches (w : world) (username pattern : option string) (gs : list gist)
    : list string :=
  map (fun gf => gist_html_url username (fst gf))
      (filter (fun gf => file_matches w pattern (snd gf)) (spec_expand gs)).

(** Number of files of one gist whose body matches. *)
Definition matching_files (w : world) (pattern : option string) (g : gist) : nat :=
  length (filter (fun nf => file_matches w pattern (snd nf)) (gist_files g)).

End Traversal.

(** ** Concrete upstream data for examples *)

Fixpoint str_prefix (p s : string) : bool :=
  match p, s with
  | EmptyString, _ => true
  | String a p', String b s' => Ascii.eqb a b && str_prefix p' s'
  | _, _ => false
  end.

Fixpoint str_contains (p s : string) : bool :=
  str_prefix p s || match s with EmptyString => false | String _ s' => str_contains p s' end.

(** A stand-in for Python's [re.search] that agrees with it on the patterns
    used below: plain literals (searched as substrings) and ["("], which
    Python rejects with [re.error: missing ), unterminated subpattern]. *)
Definition lit_re (p s : string) : option bool :=
  if String.eqb p "(" then None else Some (str_contains p s).

(** A fixed upstream: a table of URL replies, 404 (non-JSON) elsewhere. *)
Definition table_world (entries : list (string * reply)) : world :=
  fun u => match find (fun e => String.eqb (fst e) u) entries with
           | Some (_, r) => r
           | None => Resp (mk_resp 404 "Not Found" None None)
           end.

Definition ok_body (t : string) : reply := Resp (mk_resp 200 t None None).

Definition listing_reply (code : Z) (j : listing_json) (next : option string) : reply :=
  Resp (mk_resp code "" (Some j) next).

Definition alice := Some "alice".

(** The spec's scenario: gist [g1] with [a.py] ("TODO") and [b.py] ("done"). *)
Definition g1 := mk_gist "g1" [("a.py", mk_file "raw/a"); ("b.py", mk_file "raw/b")].

Definition alice_world : world :=
  table_world [(gists_url alice, listing_reply 200 (LArr [g1]) None);
               ("raw/a", ok_body "# TODO fix"); ("raw/b", ok_body "done")].

(** Three gists: [h1] has two matching files, [h2] none, [h3] one. *)
Definition h1 := mk_gist "h1" [("x.py", mk_file "raw/x"); ("y.py", mk_file "raw/y")].
Definition h2 := mk_gist "h2" [("z.py", mk_file "raw/z")].
Definition h3 := mk_gist "h3" [("t.py", mk_file "raw/t")].

Definition bob := Some "bob".

Definition bob_world : world :=
  table_world [(gists_url bob, listing_reply 200 (LArr [h1; h2; h3]) None);
               ("raw/x", ok_body "TODO one"); ("raw/y", ok_body "TODO two");
               ("raw/z", ok_body "nothing"); ("raw/t", ok_body "a TODO")].

(** [bob_world] with one unrequested URL answered differently. *)
Definition bob_world' : world :=
  fun x => if String.eqb x "raw/unused" then TransportFailure else bob_world x.

(** A user who exists and has no gists: the listing is [[]]. *)
Definition carol := Some "carol".

Definition carol_world : world :=
  table_world [(gists_url carol, listing_reply 200 (LArr []) None)].

(** dave's gist [d1]: [raw/d1] is served, [raw/d2] times out. *)
Definition dave := Some "dave".
Definition d1 := mk_gist "d1" [("ok.py", mk_file "raw/d1"); ("slow.py", mk_file "raw/d2")].

Definition dave_world : world :=
  table_world [(gists_url dave, listing_reply 200 (LArr [d1]) None);
               ("raw/d1", ok_body "TODO"); ("raw/d2", TransportFailure)].

(** erin's gist [e1]: [raw/e2] answers 500 with a body containing "TODO". *)
Definition erin := Some "erin".
Definition e1 := mk_gist "e1" [("a.py", mk_file "raw/e1"); ("b.py", mk_file "raw/e2")].

Definition erin_world : world :=
  table_world [(gists_url erin, listing_reply 200 (LArr [e1]) None);
               ("raw/e1", ok_body "done");
               ("raw/e2", Resp (mk_resp 500 "TODO: internal server error" None None))].

(** An unknown user (404 with GitHub's JSON error object), the same body
    under a 403 (rate limit), and a listing request that fails in transport. *)
Definition ghost := Some "ghost".

Definition ghost404_world : world :=
  table_world [(gists_url ghost, listing_reply 404 LOther None)].

Definition ghost403_world : world :=
  table_world [(gists_url ghost, listing_reply 403 LOther None)].

(** frank has two listing pages: [k1] on the first, [k2] on the second. *)
Definition frank := Some "frank".
Definition frank_page2 := "https://api.github.com/users/frank/gists?page=2".
Definition k1 := mk_gist "k1" [("n.py", mk_file "raw/k1")].
Definition k2 := mk_gist "k2" [("m.py", mk_file "raw/k2")].

Definition frank_world : world :=
  table_world [(gists_url frank, listing_reply 200 (LArr [k1]) (Some frank_page2));
               (frank_page2, listing_reply 200 (LArr [k2]) None);
               ("raw/k1", ok_body "nothing here"); ("raw/k2", ok_body "TODO")].

(** A 500 from the listing endpoint whose body is nonetheless a JSON array. *)
Definition eve := Some "eve".
Definition v1 := mk_gist "v1" [("q.py", mk_file "raw/v1")].

Definition eve_world : world :=
  table_world [(gists_url eve, listing_reply 500 (LArr [v1]) None);
               ("raw/v1", ok_body "TODO")].

End GistApi.

Module Props.
Import GistApi.

Section Loops.

Variable re : string -> string -> option bool.

Ltac step H :=
  cbn [search_files search_gists] in H;
  unfold bind, ret, raise, http_get, py_re_search in H; cbn beta iota in H.

(** A run of the file loop that returns normally appended one URL per
    matching file, in file order. *)
Lemma search_files_success w u p g fs acc tr ms tr' :
  search_files re w u p g fs acc tr = (inr ms, tr') ->
  ms = (acc ++ map (fun _ => gist_html_url u g)
                   (filter (fun nf => file_matches re w p (snd nf)) fs))%list.
Proof.
  revert acc tr. induction fs as [|[n f] fs IH]; intros acc tr H; step H.
  - inversion H; subst. rewrite app_nil_r. reflexivity.
  - destruct (w (raw_url f)) as [r|] eqn:Ew; step H; [|discriminate].
    destruct p as [p|]; step H; [|discriminate].
    destruct (re p (text r)) as [b|] eqn:Er; step H; [|discriminate].
    apply IH in H. rewrite H. cbn [filter snd].
    replace (file_matches re w (Some p) f) with b
      by (unfold file_matches; rewrite Ew, Er; destruct b; reflexivity).
    destruct b; cbn [map].
    + rewrite <- app_assoc. reflexivity.
    + reflexivity.
Qed.

Lemma search_gists_success w u p gs acc tr ms tr' :
  search_gists re w u p gs acc tr = (inr ms, tr') ->
  ms = (acc ++ spec_matches re w u p gs)%list.
Proof.
  revert acc tr. induction gs as [|g gs IH]; intros acc tr H; step H.
  - inversion H; subst. rewrite app_nil_r. reflexivity.
  - destruct (search_files re w u p g (gist_files g) acc tr) as [[e|ms1] tr1] eqn:E1;
      step H; [discriminate|].
    apply search_files_success in E1. apply IH in H. subst.
    unfold spec_matches, spec_expand. cbn [flat_map].
    rewrite filter_app, map_app, app_assoc. f_equal. f_equal.
    rewrite filter_map_swap, !map_map. cbn. reflexivity.
Qed.

Lemma gists_for_user_eq w u tr :
  gists_for_user w u tr =
  match w (gists_url u) with
  | Resp r => (match json r with Some j => inr j | None => inl JSONDecodeError end,
               (tr ++ [gists_url u])%list)
  | TransportFailure => (inl ConnectionError, (tr ++ [gists_url u])%list)
  end.
Proof.
  unfold gists_for_user, bind, http_get.
  destruct (w (gists_url u)) as [r|]; [|reflexivity].
  unfold response_json, ret, raise.
  destruct (raise_for_status_fails (status_code r)), (json r); reflexivity.
Qed.

Lemma search_eq w req tr :
  search re w req tr =
  match gists_for_user w (req_username req) tr with
  | (inl e, t) => (inl e, t)
  | (inr (LArr ((_ :: _) as gs)), t) =>
      match search_gists re w (req_username req) (req_pattern req) gs [] t with
      | (inl e, t') => (inl e, t')
      | (inr ms, t') => (inr (RSuccess (req_username req) (req_pattern req) ms), t')
      end
  | (inr _, t) => (inr RFail, t)
  end.
Proof.
  unfold search, bind at 1.
  destruct (gists_for_user w (req_username req) tr) as [[e|[[|g gs]|]] t]; try reflexivity.
Qed.

(** A successful run over a listing [gs] returns [spec_matches] of [gs]. *)
Lemma run_search_success w u p r gs u' p' ms tr :
  w (gists_url u) = Resp r -> json r = Some (LArr gs) ->
  run_search re w (mk_req u p) = (inr (RSuccess u' p' ms), tr) ->
  ms = spec_matches re w u p gs.
Proof.
  intros Hw Hj H. unfold run_search in H. rewrite search_eq in H.
  cbn [req_username req_pattern] in H. rewrite gists_for_user_eq, Hw, Hj in H.
  destruct gs as [|g gs]; [discriminate|].
  destruct (search_gists re w u p (g :: gs) [] _) as [[e|ms1] t'] eqn:E; [discriminate|].
  inversion H; subst. apply search_gists_success in E. exact E.
Qed.

Lemma map_const_repeat {A B} (x : B) (l : list A) :
  map (fun _ => x) l = repeat x (length l).
Proof. induction l as [|a l IH]; cbn; [reflexivity|now rewrite IH]. Qed.

Lemma spec_matches_per_gist w u p gs :
  spec_matches re w u p gs =
  flat_map (fun g => repeat (gist_html_url u g) (matching_files re w p g)) gs.
Proof.
  induction gs as [|g gs IH]; [reflexivity|].
  unfold spec_matches, spec_expand in *. cbn [flat_map].
  rewrite filter_app, map_app, IH. f_equal.
  unfold matching_files. rewrite filter_map_swap, map_map. cbn.
  apply map_const_repeat.
Qed.

(** *** Runs whose pattern always raises ([None], or one [re] rejects) *)

Section Raising.

Variable pat : option string.
Variable e : py_exc.
Hypothesis pat_raises : forall s t, py_re_search re pat s t = (inl e, t).

Definition first_fetch_outcome (w : world) (f : file_ref) : py_exc :=
  match w (raw_url f) with Resp _ => e | TransportFailure => ConnectionError end.

Lemma search_files_raising w u g fs acc tr :
  search_files re w u pat g fs acc tr =
  match fs with
  | [] => (inr acc, tr)
  | (_, f) :: _ => (inl (first_fetch_outcome w f), (tr ++ [raw_url f])%list)
  end.
Proof.
  destruct fs as [|[n f] fs]; [reflexivity|].
  cbn [search_files]. unfold bind at 1, http_get, first_fetch_outcome.
  destruct (w (raw_url f)); [|reflexivity].
  unfold bind. rewrite pat_raises. reflexivity.
Qed.

Lemma search_gists_raising w u gs acc tr :
  search_gists re w u pat gs acc tr =
  match spec_expand gs with
  | [] => (inr acc, tr)
  | (_, f) :: _ => (inl (first_fetch_outcome w f), (tr ++ [raw_url f])%list)
  end.
Proof.
  induction gs as [|g gs IH]; [reflexivity|].
  cbn [search_gists]. unfold bind at 1. rewrite search_files_raising.
  unfold spec_expand. cbn [flat_map].
  destruct (gist_files g) as [|[n f] fs]; [exact IH|reflexivity].
Qed.

Lemma run_search_raising w u :
  run_search re w (mk_req u pat) =
  match w (gists_url u) with
  | TransportFailure => (inl ConnectionError, [gists_url u])
  | Resp r =>
      match json r with
      | None => (inl JSONDecodeError, [gists_url u])
      | Some (LArr ((_ :: _) as gs)) =>
          match spec_expand gs with
          | [] => (inr (RSuccess u pat []), [gists_url u])
          | (_, f) :: _ => (inl (first_fetch_outcome w f), [gists_url u; raw_url f])
          end
      | Some _ => (inr RFail, [gists_url u])
      end
  end.
Proof.
  unfold run_search. rewrite search_eq, gists_for_user_eq. cbn [req_username req_pattern].
  destruct (w (gists_url u)) as [r|]; [|reflexivity].
  destruct (json r) as [[[|g gs]|]|]; try reflexivity.
  rewrite search_gists_raising. cbn [app].
  destruct (spec_expand (g :: gs)) as [|[g' f] l]; reflexivity.
Qed.

End Raising.

(** *** Runs whose pattern always compiles *)

Section Compiling.

Variable p : string.
Hypothesis p_compiles : forall s, re p s <> None.

Lemma search_files_no_transport_failure w u g fs acc tr :
  (forall nf, In nf fs -> w (raw_url (snd nf)) <> TransportFailure) ->
  exists t, search_files re w u (Some p) g fs acc tr
            = (inr (acc ++ map (fun _ => gist_html_url u g)
                    (filter (fun nf => file_matches re w (Some p) (snd nf)) fs))%list, t).
Proof.
  intros Hok.
  destruct (search_files re w u (Some p) g fs acc tr) as [o t] eqn:E. exists t.
  destruct o as [x|ms].
  - exfalso. revert acc tr E. induction fs as [|[n f] fs IH]; intros acc tr E.
    + discriminate.
    + cbn [search_files] in E. unfold bind at 1, http_get in E.
      pose proof (Hok (n, f) (or_introl eq_refl)) as Hf. cbn [snd] in Hf.
      destruct (w (raw_url f)) as [r|]; [|contradiction].
      unfold bind, py_re_search in E. specialize (p_compiles (text r)).
      destruct (re p (text r)) as [b|]; [|contradiction].
      unfold ret in E. eapply IH; [|exact E]. intros nf Hin. apply Hok. right. exact Hin.
  - apply search_files_success in E. rewrite E. reflexivity.
Qed.

Lemma search_files_only_connection_error w u g fs acc tr x t :
  search_files re w u (Some p) g fs acc tr = (inl x, t) -> x = ConnectionError.
Proof.
  revert acc tr. induction fs as [|[n f] fs IH]; intros acc tr E; [discriminate|].
  cbn [search_files] in E. unfold bind at 1, http_get in E.
  destruct (w (raw_url f)) as [r|]; [|congruence].
  unfold bind, py_re_search in E. specialize (p_compiles (text r)).
  destruct (re p (text r)) as [b|]; [|contradiction].
  exact (IH _ _ E).
Qed.

Lemma search_files_transport_failure w u g fs acc tr :
  (exists nf, In nf fs /\ w (raw_url (snd nf)) = TransportFailure) ->
  fst (search_files re w u (Some p) g fs acc tr) = inl ConnectionError.
Proof.
  intros [nf [Hin Hf]]. revert acc tr.
  induction fs as [|[n f] fs IH]; intros acc tr; [destruct Hin|].
  cbn [search_files]. unfold bind at 1, http_get.
  destruct Hin as [<- | Hin].
  - cbn [snd] in Hf. rewrite Hf. reflexivity.
  - destruct (w (raw_url f)) as [r|]; [|reflexivity].
    unfold bind, py_re_search. specialize (p_compiles (text r)).
    destruct (re p (text r)) as [b|]; [|contradiction].
    apply IH. exact Hin.
Qed.

Lemma search_gists_transport_failure w u gs acc tr :
  (exists g f, In (g, f) (spec_expand gs) /\ w (raw_url f) = TransportFailure) ->
  fst (search_gists re w u (Some p) gs acc tr) = inl ConnectionError.
Proof.
  intros [g [f [Hin Hf]]]. revert acc tr.
  induction gs as [|g0 gs IH]; intros acc tr; [destruct Hin|].
  cbn [search_gists]. unfold bind at 1.
  unfold spec_expand in Hin. cbn [flat_map] in Hin. apply in_app_or in Hin.
  destruct Hin as [Hin|Hin].
  - apply in_map_iff in Hin. destruct Hin as [nf [Heq Hin]]. injection Heq as Hg Hfe. subst g f.
    pose proof (search_files_transport_failure w u g0 (gist_files g0) acc tr
                  (ex_intro _ nf (conj Hin Hf))) as H.
    destruct (search_files re w u (Some p) g0 (gist_files g0) acc tr) as [[x|ms] t].
    + exact H.
    + discriminate.
  - destruct (search_files re w u (Some p) g0 (gist_files g0) acc tr) as [[x|ms] t] eqn:E.
    + cbn. f_equal. eapply search_files_only_connection_error. exact E.
    + apply IH. exact Hin.
Qed.

Lemma search_gists_no_transport_failure w u gs acc tr :
  (forall g f, In (g, f) (spec_expand gs) -> w (raw_url f) <> TransportFailure) ->
  fst (search_gists re w u (Some p) gs acc tr) = inr (acc ++ spec_matches re w u (Some p) gs)%list.
Proof.
  revert acc tr. induction gs as [|g gs IH]; intros acc tr Hok.
  - cbn. rewrite app_nil_r. reflexivity.
  - cbn [search_gists]. unfold bind at 1.
    destruct (search_files_no_transport_failure w u g (gist_files g) acc tr) as [t E].
    { intros nf Hin. apply (Hok g). unfold spec_expand. cbn [flat_map]. apply in_or_app.
      left. apply in_map_iff. exists nf. split; [reflexivity|exact Hin]. }
    rewrite E. rewrite IH.
    + f_equal. rewrite <- app_assoc. f_equal.
      unfold spec_matches, spec_expand. cbn [flat_map].
      rewrite filter_app, map_app. f_equal.
      rewrite filter_map_swap, !map_map. reflexivity.
    + intros g' f Hin. apply (Hok g'). unfold spec_expand in *. cbn [flat_map].
      apply in_or_app. right. exact Hin.
Qed.

End Compiling.

(** *** The requests a run issues *)

Lemma search_files_trace w u pat g fs acc tr o t :
  search_files re w u pat g fs acc tr = (o, t) ->
  exists d, t = (tr ++ d)%list /\
            forall x, In x d -> exists nf, In nf fs /\ x = raw_url (snd nf).
Proof.
  revert acc tr. induction fs as [|[n f] fs IH]; intros acc tr E.
  - cbn in E. injection E as _ <-. exists []. split; [now rewrite app_nil_r|].
    intros x [].
  - cbn [search_files] in E. unfold bind at 1, http_get in E.
    assert (Hhd : forall x, In x [raw_url f] ->
                  exists nf, In nf ((n, f) :: fs) /\ x = raw_url (snd nf)).
    { intros x [<-|[]]. exists (n, f). split; [left|]; reflexivity. }
    destruct (w (raw_url f)) as [r|].
    + unfold bind, py_re_search in E.
      destruct pat as [pt|]; [destruct (re pt (text r)) as [b|]|].
      * unfold ret in E. apply IH in E. destruct E as [d [-> Hd]].
        exists (raw_url f :: d). split; [now rewrite <- app_assoc|].
        intros x [<-|Hin]; [apply Hhd; left; reflexivity|].
        destruct (Hd x Hin) as [nf [Hnf ->]]. exists nf. split; [right|]; auto.
      * injection E as _ <-. exists [raw_url f]. split; [reflexivity|exact Hhd].
      * injection E as _ <-. exists [raw_url f]. split; [reflexivity|exact Hhd].
    + injection E as _ <-. exists [raw_url f]. split; [reflexivity|exact Hhd].
Qed.

Lemma search_gists_trace w u pat gs acc tr o t :
  search_gists re w u pat gs acc tr = (o, t) ->
  exists d, t = (tr ++ d)%list /\
            forall x, In x d -> exists g f, In (g, f) (spec_expand gs) /\ x = raw_url f.
Proof.
  revert acc tr. induction gs as [|g gs IH]; intros acc tr E.
  - cbn in E. injection E as _ <-. exists []. split; [now rewrite app_nil_r|].
    intros x [].
  - cbn [search_gists] in E. unfold bind at 1 in E.
    destruct (search_files re w u pat g (gist_files g) acc tr) as [o1 t1] eqn:E1.
    apply search_files_trace in E1. destruct E1 as [d1 [-> Hd1]].
    assert (H1 : forall x, In x d1 ->
                 exists g' f, In (g', f) (spec_expand (g :: gs)) /\ x = raw_url f).
    { intros x Hin. destruct (Hd1 x Hin) as [nf [Hnf ->]]. exists g, (snd nf).
      split; [|reflexivity]. unfold spec_expand. cbn [flat_map]. apply in_or_app.
      left. apply in_map_iff. exists nf. split; [reflexivity|exact Hnf]. }
    destruct o1 as [x|ms].
    + injection E as _ <-. exists d1. split; [reflexivity|exact H1].
    + apply IH in E. destruct E as [d2 [-> Hd2]]. exists (d1 ++ d2)%list.
      split; [now rewrite app_assoc|].
      intros x Hin. apply in_app_or in Hin. destruct Hin as [Hin|Hin]; [exact (H1 x Hin)|].
      destruct (Hd2 x Hin) as [g' [f [Hg' ->]]]. exists g', f. split; [|reflexivity].
      unfold spec_expand in *. cbn [flat_map]. apply in_or_app. right. exact Hg'.
Qed.

Lemma run_search_trace w req o tr :
  run_search re w req = (o, tr) ->
  exists rest, tr = gists_url (req_username req) :: rest /\
    forall x, In x rest ->
      exists r gs g f, w (gists_url (req_username req)) = Resp r /\
                       json r = Some (LArr gs) /\ In (g, f) (spec_expand gs) /\ x = raw_url f.
Proof.
  unfold run_search. rewrite search_eq, gists_for_user_eq. cbn [app].
  destruct (w (gists_url (req_username req))) as [r|] eqn:Ew;
    [|intros E; injection E as _ <-; exists []; split; [reflexivity|intros x []]].
  destruct (json r) as [[[|g gs]|]|] eqn:Ej;
    try (intros E; injection E as _ <-; exists []; split; [reflexivity|intros x []]).
  destruct (search_gists re w (req_username req) (req_pattern req) (g :: gs) []
              [gists_url (req_username req)]) as [o1 t1] eqn:E1.
  apply search_gists_trace in E1. destruct E1 as [d [-> Hd]].
  intros E. assert (t : tr = (gists_url (req_username req) :: d)%list)
    by (destruct o1; injection E; auto).
  subst tr. exists d. split; [reflexivity|].
  intros x Hin. destruct (Hd x Hin) as [g' [f [Hin' ->]]].
  exists r, (g :: gs), g', f. auto.
Qed.

(** A listing whose JSON is anything but a non-empty array ends the run
    with the failure object, after the listing request alone. *)
Lemma run_search_no_gists w req r j :
  w (gists_url (req_username req)) = Resp r -> json r = Some j ->
  (forall g gs, j <> LArr (g :: gs)) ->
  run_search re w req = (inr RFail, [gists_url (req_username req)]).
Proof.
  intros Hw Hj Hne. unfold run_search. rewrite search_eq, gists_for_user_eq, Hw, Hj.
  destruct j as [[|g gs]|]; [reflexivity| |reflexivity].
  exfalso. exact (Hne g gs eq_refl).
Qed.

End Loops.

(** *** Dependence on the upstream only through the requested URLs *)

Definition agree (w1 w2 : world) (tr : list string) : Prop :=
  forall x, In x tr -> w1 x = w2 x.

(** A world-indexed program only extends the trace, and a second world that
    agrees with the first on the final trace gives the same run. *)
Definition stable {A} (P : world -> M A) : Prop :=
  forall w1 w2 tr,
    (exists d, snd (P w1 tr) = (tr ++ d)%list) /\
    (agree w1 w2 (snd (P w1 tr)) -> P w2 tr = P w1 tr).

Lemma agree_app_l w1 w2 t d : agree w1 w2 (t ++ d)%list -> agree w1 w2 t.
Proof. intros H x Hx. apply H. apply in_or_app. left. exact Hx. Qed.

Lemma stable_pure {A} (m : M A) :
  (forall tr, snd (m tr) = tr) -> stable (fun _ => m).
Proof.
  intros Hm w1 w2 tr. split; [exists []; rewrite app_nil_r; apply Hm|reflexivity].
Qed.

Lemma stable_http_get url : stable (fun w => http_get w url).
Proof.
  intros w1 w2 tr. unfold http_get. split.
  - exists [url]. destruct (w1 url); reflexivity.
  - intros H. assert (E : w2 url = w1 url).
    { symmetry. apply H. destruct (w1 url); apply in_or_app; right; left; reflexivity. }
    rewrite E. reflexivity.
Qed.

Lemma stable_bind {A B} (P : world -> M A) (K : world -> A -> M B) :
  stable P -> (forall a, stable (fun w => K w a)) ->
  stable (fun w => bind (P w) (K w)).
Proof.
  intros HP HK w1 w2 tr. unfold bind.
  destruct (HP w1 w2 tr) as [[d1 Hd1] HP12].
  destruct (P w1 tr) as [[e|a] t1] eqn:E1; cbn [snd] in Hd1; subst t1.
  - split; [exists d1; reflexivity|]. intros Hag. rewrite HP12 by exact Hag. reflexivity.
  - destruct (HK a w1 w2 (tr ++ d1)%list) as [[d2 Hd2] HK12].
    split.
    + exists (d1 ++ d2)%list. rewrite Hd2, app_assoc. reflexivity.
    + intros Hag. rewrite HP12.
      * apply HK12. exact Hag.
      * rewrite Hd2 in Hag. exact (agree_app_l _ _ _ _ Hag).
Qed.

Lemma stable_py_re_search re pat s : stable (fun _ => py_re_search re pat s).
Proof.
  apply stable_pure. intros tr. unfold py_re_search.
  destruct pat as [p|]; [destruct (re p s)|]; reflexivity.
Qed.

Lemma stable_search_files re u pat g fs acc :
  stable (fun w => search_files re w u pat g fs acc).
Proof.
  revert acc. induction fs as [|[n f] fs IH]; intros acc.
  - cbn [search_files]. apply (stable_pure (ret acc)). reflexivity.
  - cbn [search_files]. apply stable_bind; [apply stable_http_get|]. intros r.
    apply stable_bind; [apply stable_py_re_search|]. intros m. apply IH.
Qed.

Lemma stable_search_gists re u pat gs acc :
  stable (fun w => search_gists re w u pat gs acc).
Proof.
  revert acc. induction gs as [|g gs IH]; intros acc.
  - cbn [search_gists]. apply (stable_pure (ret acc)). reflexivity.
  - cbn [search_gists]. apply stable_bind; [apply stable_search_files|]. exact IH.
Qed.

Lemma stable_gists_for_user u : stable (fun w => gists_for_user w u).
Proof.
  unfold gists_for_user. apply stable_bind; [apply stable_http_get|]. intros r.
  apply (stable_pure (if raise_for_status_fails (status_code r)
                      then response_json r else response_json r)). intros tr. unfold response_json.
  destruct (raise_for_status_fails (status_code r)), (json r); reflexivity.
Qed.

Lemma stable_search re req : stable (fun w => search re w req).
Proof.
  unfold search. apply stable_bind; [apply stable_gists_for_user|]. intros j.
  destruct j as [[|g gs]|]; try (apply (stable_pure (ret RFail)); reflexivity).
  apply stable_bind; [apply stable_search_gists|]. intros ms.
  apply (stable_pure (ret (RSuccess (req_username req) (req_pattern req) ms))).
  reflexivity.
Qed.

End Props.

Module Claims.
Import GistApi Props.

Definition bob_listing : response := mk_resp 200 "" (Some (LArr [h1; h2; h3])) None.

(** C1 (amended): on a run that returns matches, [matches] holds one copy of
    a gist's URL per matching file of that gist, gist by gist in listing
    order; the URL of a gist with two matching files appears twice. *)
Theorem search_matches_one_url_per_matching_file re w u p r gs u' p' ms tr :
  w (gists_url u) = Resp r -> json r = Some (LArr gs) ->
  run_search re w (mk_req u p) = (inr (RSuccess u' p' ms), tr) ->
  ms = flat_map (fun g => repeat (gist_html_url u g) (matching_files re w p g)) gs.
Proof.
  intros Hw Hj H. rewrite (run_search_success re w u p r gs u' p' ms tr Hw Hj H).
  apply spec_matches_per_gist.
Qed.

Lemma search_matches_one_url_per_matching_file_witness :
  ["https://gist.github.com/bob/h1"; "https://gist.github.com/bob/h1";
   "https://gist.github.com/bob/h3"]
  = flat_map (fun g => repeat (gist_html_url bob g) (matching_files lit_re bob_world (Some "TODO") g))
      [h1; h2; h3].
Proof.
  apply (search_matches_one_url_per_matching_file lit_re bob_world bob (Some "TODO")
           bob_listing [h1; h2; h3] bob (Some "TODO") _
           ["https://api.github.com/users/bob/gists"; "raw/x"; "raw/y"; "raw/z"; "raw/t"]);
    reflexivity.
Defined.

(** C1 counterexample: [h1] has two files containing "TODO"; its URL is
    returned twice, so [matches] is not duplicate-free. *)
Lemma search_duplicate_gist_url :
  run_search lit_re bob_world (mk_req bob (Some "TODO"))
  = (inr (RSuccess bob (Some "TODO")
            ["https://gist.github.com/bob/h1"; "https://gist.github.com/bob/h1";
             "https://gist.github.com/bob/h3"]),
     ["https://api.github.com/users/bob/gists"; "raw/x"; "raw/y"; "raw/z"; "raw/t"])
  /\ ~ NoDup ["https://gist.github.com/bob/h1"; "https://gist.github.com/bob/h1";
              "https://gist.github.com/bob/h3"].
Proof.
  split; [reflexivity|].
  intro Hnd. inversion Hnd as [|x l Hnotin Hrest]. apply Hnotin. left. reflexivity.
Qed.

(** C2 (amended): when the listing succeeds with an empty array, [search]
    answers the fixed failure object after the single listing request. *)
Theorem search_empty_listing_fails re w u p r :
  w (gists_url u) = Resp r -> json r = Some (LArr []) ->
  run_search re w (mk_req u p) = (inr RFail, [gists_url u]).
Proof.
  intros Hw Hj. unfold run_search. rewrite search_eq. cbn [req_username].
  rewrite gists_for_user_eq, Hw, Hj. reflexivity.
Qed.

Lemma search_empty_listing_fails_witness :
  run_search lit_re carol_world (mk_req carol (Some "TODO"))
  = (inr RFail, ["https://api.github.com/users/carol/gists"]).
Proof.
  apply (search_empty_listing_fails lit_re carol_world carol (Some "TODO")
           (mk_resp 200 "" (Some (LArr [])) None)); reflexivity.
Defined.

(** C2 counterexample: carol has zero gists, yet the answer is the failure
    object, not a success with empty [matches]. *)
Lemma search_zero_gists_not_success :
  run_search lit_re carol_world (mk_req carol (Some "TODO"))
    = (inr RFail, ["https://api.github.com/users/carol/gists"])
  /\ fst (run_search lit_re carol_world (mk_req carol (Some "TODO")))
     <> inr (RSuccess carol (Some "TODO") []).
Proof. split; [reflexivity|]. cbv. discriminate. Qed.

(** C7: the matches of a returning run are the gist URLs of the matching
    (gist, file) pairs in gist-then-file traversal order. *)
Theorem search_matches_traversal_order re w u p r gs u' p' ms tr :
  w (gists_url u) = Resp r -> json r = Some (LArr gs) ->
  run_search re w (mk_req u p) = (inr (RSuccess u' p' ms), tr) ->
  ms = spec_matches re w u p gs.
Proof. apply run_search_success. Qed.

Lemma search_matches_traversal_order_witness :
  ["https://gist.github.com/bob/h1"; "https://gist.github.com/bob/h1";
   "https://gist.github.com/bob/h3"]
  = spec_matches lit_re bob_world bob (Some "TODO") [h1; h2; h3].
Proof.
  apply (search_matches_traversal_order lit_re bob_world bob (Some "TODO")
           bob_listing [h1; h2; h3] bob (Some "TODO") _
           ["https://api.github.com/users/bob/gists"; "raw/x"; "raw/y"; "raw/z"; "raw/t"]);
    reflexivity.
Defined.

(** C3 (amended): nothing is validated before network I/O. Every request
    first issues the listing request (also for an empty username or
    pattern); a pattern that does not compile surfaces only as an uncaught
    [re.error] when the first fetched body is tested: when the first listed
    file is served, the run ends with [re.error] after the listing request
    and exactly that one raw-content fetch, and it ends with [re.error] in no
    other case; the error goes unreported when the listing has no file. *)
Theorem search_no_input_validation re w :
  (forall req, exists rest, snd (run_search re w req) = gists_url (req_username req) :: rest)
  /\ (forall u p r gs g f l r', (forall s, re p s = None) ->
        w (gists_url u) = Resp r -> json r = Some (LArr gs) ->
        spec_expand gs = (g, f) :: l -> w (raw_url f) = Resp r' ->
        run_search re w (mk_req u (Some p)) = (inl ReError, [gists_url u; raw_url f]))
  /\ (forall u p tr, (forall s, re p s = None) ->
        run_search re w (mk_req u (Some p)) = (inl ReError, tr) ->
        exists r gs g f l r', w (gists_url u) = Resp r /\ json r = Some (LArr gs) /\
          spec_expand gs = (g, f) :: l /\ w (raw_url f) = Resp r' /\
          tr = [gists_url u; raw_url f])
  /\ (forall u p r gs, (forall s, re p s = None) ->
        w (gists_url u) = Resp r -> json r = Some (LArr gs) -> spec_expand gs = [] ->
        fst (run_search re w (mk_req u (Some p))) <> inl ReError).
Proof.
  split; [|split; [|split]].
  - intros req. destruct (run_search re w req) as [o tr] eqn:E.
    apply run_search_trace in E. destruct E as [rest [-> _]]. exists rest. reflexivity.
  - intros u p r gs g f l r' Hbad Hw Hj Hexp Hf.
    assert (Hr : forall s t, py_re_search re (Some p) s t = (inl ReError, t))
      by (intros s t; unfold py_re_search; rewrite Hbad; reflexivity).
    rewrite (run_search_raising re (Some p) ReError Hr), Hw, Hj.
    destruct gs as [|g0 gs]; [discriminate|]. rewrite Hexp.
    unfold first_fetch_outcome. rewrite Hf. reflexivity.
  - intros u p tr Hbad E.
    assert (Hr : forall s t, py_re_search re (Some p) s t = (inl ReError, t))
      by (intros s t; unfold py_re_search; rewrite Hbad; reflexivity).
    rewrite (run_search_raising re (Some p) ReError Hr) in E.
    destruct (w (gists_url u)) as [r|]; [|discriminate].
    destruct (json r) as [[[|g gs]|]|] eqn:Ej; try discriminate.
    destruct (spec_expand (g :: gs)) as [|[g' f] l] eqn:Hexp; [discriminate|].
    unfold first_fetch_outcome in E.
    destruct (w (raw_url f)) as [r'|] eqn:Ef; [|discriminate].
    injection E as <-. exists r, (g :: gs), g', f, l, r'. auto.
  - intros u p r gs Hbad Hw Hj Hnil.
    assert (Hr : forall s t, py_re_search re (Some p) s t = (inl ReError, t))
      by (intros s t; unfold py_re_search; rewrite Hbad; reflexivity).
    rewrite (run_search_raising re (Some p) ReError Hr), Hw, Hj.
    destruct gs as [|g gs]; [discriminate|]. rewrite Hnil. discriminate.
Qed.

Lemma search_no_input_validation_witness :
  run_search lit_re alice_world (mk_req alice (Some "("))
  = (inl ReError, ["https://api.github.com/users/alice/gists"; "raw/a"]).
Proof.
  apply (proj1 (proj2 (search_no_input_validation lit_re alice_world))
           alice "(" (mk_resp 200 "" (Some (LArr [g1])) None) [g1] g1 (mk_file "raw/a")
           [(g1, mk_file "raw/b")] (mk_resp 200 "# TODO fix" None None));
    [intros s; reflexivity | reflexivity | reflexivity | reflexivity | reflexivity].
Defined.

(** C3 counterexample: the pattern "(" does not compile, yet the listing
    request and one raw fetch are issued before the run ends with an
    uncaught [re.error]; an empty username is requested as is. *)
Lemma search_invalid_pattern_after_network :
  run_search lit_re alice_world (mk_req alice (Some "("))
    = (inl ReError, ["https://api.github.com/users/alice/gists"; "raw/a"])
  /\ snd (run_search lit_re alice_world (mk_req (Some "") (Some "TODO")))
    = ["https://api.github.com/users//gists"].
Proof. split; reflexivity. Qed.

(** C4 (amended): with a pattern that compiles, a file fetch answered with
    any status does not abort the search (its body is matched like any
    other); a transport failure of any file fetch aborts the whole search
    with an uncaught exception. *)
Theorem search_file_fetch_failures re w u p r g gs :
  (forall s, re p s <> None) ->
  w (gists_url u) = Resp r -> json r = Some (LArr (g :: gs)) ->
  ((forall g' f, In (g', f) (spec_expand (g :: gs)) -> w (raw_url f) <> TransportFailure) ->
     fst (run_search re w (mk_req u (Some p)))
     = inr (RSuccess u (Some p) (spec_matches re w u (Some p) (g :: gs))))
  /\ ((exists g' f, In (g', f) (spec_expand (g :: gs)) /\ w (raw_url f) = TransportFailure) ->
     fst (run_search re w (mk_req u (Some p))) = inl ConnectionError).
Proof.
  intros Hc Hw Hj. unfold run_search. rewrite !search_eq.
  cbn [req_username req_pattern]. rewrite !gists_for_user_eq, Hw, Hj. split.
  - intros Hok.
    pose proof (search_gists_no_transport_failure re p Hc w u (g :: gs) []
                  [gists_url u] Hok) as H.
    destruct (search_gists re w u (Some p) (g :: gs) [] _) as [[x|ms] t];
      cbn in H |- *; congruence.
  - intros Hbad.
    pose proof (search_gists_transport_failure re p Hc w u (g :: gs) []
                  [gists_url u] Hbad) as H.
    destruct (search_gists re w u (Some p) (g :: gs) [] _) as [[x|ms] t];
      cbn in H |- *; congruence.
Qed.

Lemma search_file_fetch_failures_witness :
  fst (run_search lit_re erin_world (mk_req erin (Some "TODO")))
    = inr (RSuccess erin (Some "TODO") ["https://gist.github.com/erin/e1"])
  /\ fst (run_search lit_re dave_world (mk_req dave (Some "TODO"))) = inl ConnectionError.
Proof.
  split.
  - pose proof (search_file_fetch_failures lit_re erin_world erin "TODO"
                  (mk_resp 200 "" (Some (LArr [e1])) None) e1 []
                  ltac:(intros s; discriminate) eq_refl eq_refl) as H.
    rewrite (proj1 H).
    + reflexivity.
    + intros g' f Hin. cbn in Hin.
      destruct Hin as [Heq|[Heq|[]]]; injection Heq as _ <-; discriminate.
  - pose proof (search_file_fetch_failures lit_re dave_world dave "TODO"
                  (mk_resp 200 "" (Some (LArr [d1])) None) d1 []
                  ltac:(intros s; discriminate) eq_refl eq_refl) as H.
    apply (proj2 H).
    exists d1, (mk_file "raw/d2"). split; [right; left; reflexivity|reflexivity].
Defined.

(** C4 counterexample: one of dave's two files times out; instead of the
    match found in the other file, the run ends with an uncaught exception. *)
Lemma search_one_timeout_aborts :
  run_search lit_re dave_world (mk_req dave (Some "TODO"))
  = (inl ConnectionError,
     ["https://api.github.com/users/dave/gists"; "raw/d1"; "raw/d2"]).
Proof. reflexivity. Qed.

(** C5 (amended): a listing response with a JSON-object body (GitHub's
    404 for an unknown user, but equally a 403 or a 500) yields the fixed
    failure object after the single listing request; a transport failure of
    the listing request ends the run with an uncaught exception instead. *)
Theorem search_unknown_user_fail_object re w u p :
  (forall r, w (gists_url u) = Resp r -> json r = Some LOther ->
     run_search re w (mk_req u p) = (inr RFail, [gists_url u]))
  /\ (w (gists_url u) = TransportFailure ->
     run_search re w (mk_req u p) = (inl ConnectionError, [gists_url u])).
Proof.
  split.
  - intros r Hw Hj. apply (run_search_no_gists re w (mk_req u p) r LOther Hw Hj).
    intros g gs. discriminate.
  - intros Hw. unfold run_search. rewrite search_eq. cbn [req_username].
    rewrite gists_for_user_eq, Hw. reflexivity.
Qed.

Lemma search_unknown_user_fail_object_witness :
  run_search lit_re ghost404_world (mk_req ghost (Some "TODO"))
  = (inr RFail, ["https://api.github.com/users/ghost/gists"]).
Proof.
  apply (proj1 (search_unknown_user_fail_object lit_re ghost404_world ghost (Some "TODO"))
           (mk_resp 404 "" (Some LOther) None)); reflexivity.
Defined.

(** C5 counterexample: the unknown user (404) and a rate-limited request
    (403) give the very same answer, the generic failure object. *)
Lemma search_not_found_indistinguishable :
  run_search lit_re ghost404_world (mk_req ghost (Some "TODO"))
    = run_search lit_re ghost403_world (mk_req ghost (Some "TODO"))
  /\ fst (run_search lit_re ghost404_world (mk_req ghost (Some "TODO"))) = inr RFail.
Proof. split; reflexivity. Qed.

(** C6 (amended): the listing endpoint is requested exactly once, first;
    every later request is a raw-content fetch of a file listed on that
    first page, so pagination links are never followed. *)
Theorem search_single_listing_page re w req o tr :
  run_search re w req = (o, tr) ->
  exists rest, tr = gists_url (req_username req) :: rest /\
    forall x, In x rest ->
      exists r gs g f, w (gists_url (req_username req)) = Resp r /\
                       json r = Some (LArr gs) /\ In (g, f) (spec_expand gs) /\ x = raw_url f.
Proof. apply run_search_trace. Qed.

Lemma search_single_listing_page_witness :
  exists rest, ["https://api.github.com/users/frank/gists"; "raw/k1"]
               = gists_url frank :: rest /\
    forall x, In x rest ->
      exists r gs g f, frank_world (gists_url frank) = Resp r /\
                       json r = Some (LArr gs) /\ In (g, f) (spec_expand gs) /\ x = raw_url f.
Proof.
  apply (search_single_listing_page lit_re frank_world (mk_req frank (Some "TODO"))
           (inr (RSuccess frank (Some "TODO") []))).
  reflexivity.
Defined.

(** C6 counterexample: frank's first listing page links to a second page
    holding a matching gist [k2]; the second page is never requested and
    [k2] is missing from the matches. *)
Lemma search_ignores_next_page :
  run_search lit_re frank_world (mk_req frank (Some "TODO"))
    = (inr (RSuccess frank (Some "TODO") []),
       ["https://api.github.com/users/frank/gists"; "raw/k1"])
  /\ fst (run_search lit_re (table_world [(gists_url frank, listing_reply 200 (LArr [k2]) None);
                                          ("raw/k2", ok_body "TODO")])
            (mk_req frank (Some "TODO")))
     = inr (RSuccess frank (Some "TODO") ["https://gist.github.com/frank/k2"]).
Proof. split; reflexivity. Qed.

(** C8: a run depends on the upstream only through the URLs it requests: a
    second upstream that answers those URLs the same way gives the same
    result and the same requests; in particular two runs against an
    unchanged upstream are identical. *)
Theorem search_deterministic re w1 w2 req o tr :
  run_search re w1 req = (o, tr) ->
  (forall x, In x tr -> w1 x = w2 x) ->
  run_search re w2 req = (o, tr).
Proof.
  intros E Hag. unfold run_search in *.
  destruct (stable_search re req w1 w2 []) as [_ H].
  rewrite E in H. apply H. exact Hag.
Qed.

Lemma search_deterministic_witness :
  run_search lit_re bob_world' (mk_req bob (Some "TODO"))
  = (inr (RSuccess bob (Some "TODO")
            ["https://gist.github.com/bob/h1"; "https://gist.github.com/bob/h1";
             "https://gist.github.com/bob/h3"]),
     ["https://api.github.com/users/bob/gists"; "raw/x"; "raw/y"; "raw/z"; "raw/t"]).
Proof.
  apply (search_deterministic lit_re bob_world bob_world').
  - reflexivity.
  - intros x Hx. unfold bob_world'.
    destruct Hx as [<-|[<-|[<-|[<-|[<-|[]]]]]]; reflexivity.
Defined.

(** C9 (amended): whatever its status code, a listing response whose body
    parses as JSON other than a non-empty array (GitHub's error objects for
    404, 403 and 5xx included) yields the same fixed failure object after
    the single listing request. *)
Theorem search_listing_error_same_object re w u p r j :
  w (gists_url u) = Resp r -> json r = Some j ->
  (forall g gs, j <> LArr (g :: gs)) ->
  run_search re w (mk_req u p) = (inr RFail, [gists_url u]).
Proof. apply (run_search_no_gists re w (mk_req u p)). Qed.

Lemma search_listing_error_same_object_witness :
  run_search lit_re ghost403_world (mk_req ghost (Some "TODO"))
  = (inr RFail, ["https://api.github.com/users/ghost/gists"]).
Proof.
  apply (search_listing_error_same_object lit_re ghost403_world ghost (Some "TODO")
           (mk_resp 403 "" (Some LOther) None) LOther).
  - reflexivity.
  - reflexivity.
  - intros g gs. discriminate.
Defined.

(** C9 counterexample: a 500 from the listing endpoint whose body is a
    non-empty JSON array is searched like a successful listing. *)
Lemma search_error_status_array_body :
  run_search lit_re eve_world (mk_req eve (Some "TODO"))
  = (inr (RSuccess eve (Some "TODO") ["https://gist.github.com/eve/v1"]),
     ["https://api.github.com/users/eve/gists"; "raw/v1"]).
Proof. reflexivity. Qed.

(** C10: missing keys are not rejected. Without ['username'] the listing
    request goes to the literal user "None"; without ['pattern'], once a
    file body has been fetched the run ends with an uncaught [TypeError]
    from [re.search(None, ...)]. *)
Theorem search_missing_keys_not_rejected re :
  (forall w p, exists rest,
     snd (run_search re w (mk_req None p)) = "https://api.github.com/users/None/gists" :: rest)
  /\ (forall w u r gs g f l r',
        w (gists_url u) = Resp r -> json r = Some (LArr gs) ->
        spec_expand gs = (g, f) :: l -> w (raw_url f) = Resp r' ->
        run_search re w (mk_req u None) = (inl TypeError, [gists_url u; raw_url f])).
Proof.
  split.
  - intros w p. destruct (run_search re w (mk_req None p)) as [o tr] eqn:E.
    apply run_search_trace in E. destruct E as [rest [-> _]]. exists rest. reflexivity.
  - intros w u r gs g f l r' Hw Hj Hexp Hf.
    assert (Hr : forall s t, py_re_search re None s t = (inl TypeError, t))
      by reflexivity.
    rewrite (run_search_raising re None TypeError Hr), Hw, Hj.
    destruct gs as [|g0 gs]; [discriminate|]. rewrite Hexp.
    unfold first_fetch_outcome. rewrite Hf. reflexivity.
Qed.

Lemma search_missing_keys_not_rejected_witness :
  run_search lit_re alice_world (mk_req alice None)
  = (inl TypeError, ["https://api.github.com/users/alice/gists"; "raw/a"]).
Proof.
  apply (proj2 (search_missing_keys_not_rejected lit_re) alice_world alice
           (mk_resp 200 "" (Some (LArr [g1])) None) [g1] g1 (mk_file "raw/a")
           [(g1, mk_file "raw/b")] (mk_resp 200 "# TODO fix" None None));
    reflexivity.
Defined.

End Claims.

Module Extras.
Import GistApi Props.

Section SuccessTrace.

Variable re : string -> string -> option bool.

(** A file loop that returns normally fetched every file, in order. *)
Lemma search_files_success_trace w u p g fs acc tr ms t :
  search_files re w u p g fs acc tr = (inr ms, t) ->
  t = (tr ++ map (fun nf => raw_url (snd nf)) fs)%list.
Proof.
  revert acc tr. induction fs as [|[n f] fs IH]; intros acc tr E.
  - cbn in E. injection E as _ <-. now rewrite app_nil_r.
  - cbn [search_files] in E. unfold bind at 1, http_get in E.
    destruct (w (raw_url f)) as [r|]; [|discriminate].
    unfold bind, py_re_search in E.
    destruct p as [pt|]; [|discriminate].
    destruct (re pt (text r)) as [b|]; [|discriminate].
    apply IH in E. rewrite E, <- app_assoc. reflexivity.
Qed.

Lemma search_gists_success_trace w u p gs acc tr ms t :
  search_gists re w u p gs acc tr = (inr ms, t) ->
  t = (tr ++ map (fun gf => raw_url (snd gf)) (spec_expand gs))%list.
Proof.
  revert acc tr. induction gs as [|g gs IH]; intros acc tr E.
  - cbn in E. injection E as _ <-. now rewrite app_nil_r.
  - cbn [search_gists] in E. unfold bind at 1 in E.
    destruct (search_files re w u p g (gist_files g) acc tr) as [[x|ms1] t1] eqn:E1;
      [discriminate|].
    apply search_files_success_trace in E1. apply IH in E. subst.
    unfold spec_expand. cbn [flat_map]. rewrite map_app, map_map, app_assoc.
    reflexivity.
Qed.

(** Gists without files are walked through without any request. *)
Lemma search_gists_no_files w u p gs acc tr :
  spec_expand gs = [] -> search_gists re w u p gs acc tr = (inr acc, tr).
Proof.
  revert acc tr. induction gs as [|g gs IH]; intros acc tr H; [reflexivity|].
  unfold spec_expand in H. cbn [flat_map] in H. apply app_eq_nil in H.
  destruct H as [Hg Hgs]. cbn [search_gists]. unfold bind at 1.
  destruct (gist_files g) as [|nf fs] eqn:Ef; [|discriminate].
  cbn [search_files ret]. apply IH. exact Hgs.
Qed.

End SuccessTrace.

(** [gists_for_user] never looks at the status code: the [HTTPError] branch
    returns [e.response.json()] just as the normal branch returns
    [response.json()], so two listing responses with the same body give the
    same outcome. *)
Theorem gists_for_user_status_ignored w1 w2 u r1 r2 tr :
  w1 (gists_url u) = Resp r1 -> w2 (gists_url u) = Resp r2 -> json r1 = json r2 ->
  gists_for_user w1 u tr = gists_for_user w2 u tr.
Proof.
  intros H1 H2 Hj. rewrite !gists_for_user_eq, H1, H2, Hj. reflexivity.
Qed.

Lemma gists_for_user_status_ignored_witness :
  gists_for_user (table_world [(gists_url ghost, listing_reply 200 LOther None)]) ghost []
  = gists_for_user ghost404_world ghost [].
Proof.
  apply (gists_for_user_status_ignored _ _ ghost (mk_resp 200 "" (Some LOther) None)
           (mk_resp 404 "" (Some LOther) None)); reflexivity.
Defined.

(** A listing body that is not JSON (an HTML error page, say) ends the run
    with an uncaught [JSONDecodeError] after the listing request alone,
    whatever the status code. *)
Theorem search_listing_not_json re w u p r :
  w (gists_url u) = Resp r -> json r = None ->
  run_search re w (mk_req u p) = (inl JSONDecodeError, [gists_url u]).
Proof.
  intros Hw Hj. unfold run_search. rewrite search_eq. cbn [req_username].
  rewrite gists_for_user_eq, Hw, Hj. reflexivity.
Qed.

Lemma search_listing_not_json_witness :
  run_search lit_re (table_world []) (mk_req alice (Some "TODO"))
  = (inl JSONDecodeError, ["https://api.github.com/users/alice/gists"]).
Proof.
  apply (search_listing_not_json lit_re (table_world []) alice (Some "TODO")
           (mk_resp 404 "Not Found" None None)); reflexivity.
Defined.

(** The failure object is answered exactly when the listing parses to a
    JSON value other than a non-empty array. *)
Theorem search_fail_iff_no_gist_array re w u p :
  fst (run_search re w (mk_req u p)) = inr RFail <->
  exists r j, w (gists_url u) = Resp r /\ json r = Some j /\
              forall g gs, j <> LArr (g :: gs).
Proof.
  split.
  - unfold run_search. rewrite search_eq. cbn [req_username req_pattern].
    rewrite gists_for_user_eq.
    destruct (w (gists_url u)) as [r|]; [|discriminate].
    destruct (json r) as [j|] eqn:Ej; [|discriminate].
    intros H. exists r, j. split; [reflexivity|]. split; [exact Ej|].
    intros g gs ->.
    destruct (search_gists re w u p (g :: gs) [] _) as [[x|ms] t]; discriminate.
  - intros [r [j [Hw [Hj Hne]]]].
    rewrite (run_search_no_gists re w (mk_req u p) r j Hw Hj Hne). reflexivity.
Qed.

(** A successful run echoes the request's username and pattern, comes from
    a non-empty gist array, and fetched every listed file exactly once in
    gist-then-file order after the listing request (no file is skipped once
    its gist has matched). *)
Theorem search_success_shape re w u p u' p' ms tr :
  run_search re w (mk_req u p) = (inr (RSuccess u' p' ms), tr) ->
  u' = u /\ p' = p /\
  exists r g gs, w (gists_url u) = Resp r /\ json r = Some (LArr (g :: gs)) /\
    tr = gists_url u :: map (fun gf => raw_url (snd gf)) (spec_expand (g :: gs)).
Proof.
  unfold run_search. rewrite search_eq. cbn [req_username req_pattern].
  rewrite gists_for_user_eq.
  destruct (w (gists_url u)) as [r|]; [|discriminate].
  destruct (json r) as [[[|g gs]|]|] eqn:Ej; try discriminate; cbn [app].
  destruct (search_gists re w u p (g :: gs) [] [gists_url u]) as [[x|ms1] t] eqn:E;
    [discriminate|].
  intros H. injection H as <- <- <- <-.
  apply search_gists_success_trace in E.
  split; [reflexivity|]. split; [reflexivity|]. exists r, g, gs. auto.
Qed.

Lemma search_success_shape_witness :
  exists r g gs, bob_world (gists_url bob) = Resp r /\ json r = Some (LArr (g :: gs)) /\
    ["https://api.github.com/users/bob/gists"; "raw/x"; "raw/y"; "raw/z"; "raw/t"]
    = gists_url bob :: map (fun gf => raw_url (snd gf)) (spec_expand (g :: gs)).
Proof.
  apply (search_success_shape lit_re bob_world bob (Some "TODO") bob (Some "TODO")
           ["https://gist.github.com/bob/h1"; "https://gist.github.com/bob/h1";
            "https://gist.github.com/bob/h3"]).
  reflexivity.
Defined.

(** Every returned URL is [https://gist.github.com/{username}/{id}] of a
    listed gist owning a matching file, each such file gives one, and there
    are never more matches than listed files. *)
Theorem search_match_membership re w u p r gs u' p' ms tr :
  w (gists_url u) = Resp r -> json r = Some (LArr gs) ->
  run_search re w (mk_req u p) = (inr (RSuccess u' p' ms), tr) ->
  (forall x, In x ms <->
     exists g f, In (g, f) (spec_expand gs) /\ file_matches re w p f = true /\
                 x = gist_html_url u g)
  /\ length ms <= length (spec_expand gs).
Proof.
  intros Hw Hj E. rewrite (run_search_success re w u p r gs u' p' ms tr Hw Hj E).
  unfold spec_matches. split.
  - intros x. rewrite in_map_iff. split.
    + intros [[g f] [<- Hin]]. apply filter_In in Hin. destruct Hin as [Hin Hm].
      exists g, f. auto.
    + intros [g [f [Hin [Hm ->]]]]. exists (g, f). split; [reflexivity|].
      apply filter_In. auto.
  - rewrite length_map. apply filter_length_le.
Qed.

Lemma search_match_membership_witness :
  (forall x, In x ["https://gist.github.com/bob/h1"; "https://gist.github.com/bob/h1";
                   "https://gist.github.com/bob/h3"] <->
     exists g f, In (g, f) (spec_expand [h1; h2; h3]) /\
                 file_matches lit_re bob_world (Some "TODO") f = true /\
                 x = gist_html_url bob g)
  /\ length ["https://gist.github.com/bob/h1"; "https://gist.github.com/bob/h1";
             "https://gist.github.com/bob/h3"] <= length (spec_expand [h1; h2; h3]).
Proof.
  apply (search_match_membership lit_re bob_world bob (Some "TODO")
           (mk_resp 200 "" (Some (LArr [h1; h2; h3])) None) [h1; h2; h3] bob (Some "TODO") _
           ["https://api.github.com/users/bob/gists"; "raw/x"; "raw/y"; "raw/z"; "raw/t"]);
    reflexivity.
Defined.

(** When the listed gists hold no files, the pattern is never consulted:
    the run succeeds with no matches after the listing request alone, also
    for a missing or non-compiling pattern. *)
Theorem search_no_files_success re w u p r g gs :
  w (gists_url u) = Resp r -> json r = Some (LArr (g :: gs)) ->
  spec_expand (g :: gs) = [] ->
  run_search re w (mk_req u p) = (inr (RSuccess u p []), [gists_url u]).
Proof.
  intros Hw Hj Hnil. unfold run_search. rewrite search_eq. cbn [req_username req_pattern].
  rewrite gists_for_user_eq, Hw, Hj. cbn [app].
  rewrite (search_gists_no_files re w u p (g :: gs) [] _ Hnil). reflexivity.
Qed.

Lemma search_no_files_success_witness :
  run_search lit_re
    (table_world [(gists_url alice, listing_reply 200 (LArr [mk_gist "empty" []]) None)])
    (mk_req alice (Some "("))
  = (inr (RSuccess alice (Some "(") []), ["https://api.github.com/users/alice/gists"]).
Proof.
  apply (search_no_files_success lit_re _ alice (Some "(")
           (mk_resp 200 "" (Some (LArr [mk_gist "empty" []])) None) (mk_gist "empty" []) []);
    reflexivity.
Defined.

End Extras.

Module Checks.
Import GistApi.
Example alice_todo :
  run_search lit_re alice_world (mk_req alice (Some "TODO"))
  = (inr (RSuccess alice (Some "TODO") ["https://gist.github.com/alice/g1"]),
     ["https://api.github.com/users/alice/gists"; "raw/a"; "raw/b"]).
Proof. reflexivity. Qed.
End Checks.
